(** * Bookstore ledger models ([models/models.py]): a shallow embedding

    The Python module declares five SQLAlchemy models ([Customer],
    [Transaction], [Category], [Books], [Currency]) and three pieces of
    behaviour: the validators run by the [Customer] constructor, the
    content-addressed factory [Transaction.create_transaction], and the
    convenience constructor [Books.add_book].

    Python values are embedded as follows.
    - [int] is [Z]; a column that has not been flushed yet holds [None],
      hence primary keys are [option Z].
    - [str] is [string], each [ascii] being the code point of one character;
      the model therefore covers the strings whose code points are below 256.
    - [bytes] is [list Z] with every element in [0, 256).
    - [float] is the primitive binary64 [float].
    - an exception is the [Raise] constructor of [result].
    - the database session is an explicit [db] record of tables that the
      operations thread through ([M]). *)

From Stdlib Require Import ZArith List String Ascii Bool Lia.
From Stdlib Require Import PrimFloat FloatOps SpecFloat.
From Stdlib Require Import DecimalString DecimalZ Permutation.
Import ListNotations.

Local Open Scope string_scope.
Local Open Scope list_scope.
Local Open Scope Z_scope.

(** ** [hashlib.md5]: RFC 1321 on 32-bit words held in [Z] *)

Module MD5.

Definition mask32 (x : Z) : Z := Z.land x 0xffffffff.

Definition add32 (x y : Z) : Z := mask32 (x + y).

Definition not32 (x : Z) : Z := Z.lxor x 0xffffffff.

Definition rotl32 (x n : Z) : Z :=
  mask32 (Z.lor (Z.shiftl x n) (Z.shiftr x (32 - n))).

(** [floor (2^32 * abs (sin (i + 1)))] for [i] in [0, 64). *)
Definition K : list Z :=
  [ 0xd76aa478; 0xe8c7b756; 0x242070db; 0xc1bdceee;
    0xf57c0faf; 0x4787c62a; 0xa8304613; 0xfd469501;
    0x698098d8; 0x8b44f7af; 0xffff5bb1; 0x895cd7be;
    0x6b901122; 0xfd987193; 0xa679438e; 0x49b40821;
    0xf61e2562; 0xc040b340; 0x265e5a51; 0xe9b6c7aa;
    0xd62f105d; 0x02441453; 0xd8a1e681; 0xe7d3fbc8;
    0x21e1cde6; 0xc33707d6; 0xf4d50d87; 0x455a14ed;
    0xa9e3e905; 0xfcefa3f8; 0x676f02d9; 0x8d2a4c8a;
    0xfffa3942; 0x8771f681; 0x6d9d6122; 0xfde5380c;
    0xa4beea44; 0x4bdecfa9; 0xf6bb4b60; 0xbebfbc70;
    0x289b7ec6; 0xeaa127fa; 0xd4ef3085; 0x04881d05;
    0xd9d4d039; 0xe6db99e5; 0x1fa27cf8; 0xc4ac5665;
    0xf4292244; 0x432aff97; 0xab9423a7; 0xfc93a039;
    0x655b59c3; 0x8f0ccc92; 0xffeff47d; 0x85845dd1;
    0x6fa87e4f; 0xfe2ce6e0; 0xa3014314; 0x4e0811a1;
    0xf7537e82; 0xbd3af235; 0x2ad7d2bb; 0xeb86d391 ].

(** Per-round left-rotation amounts. *)
Definition S : list Z :=
  [ 7; 12; 17; 22; 7; 12; 17; 22; 7; 12; 17; 22; 7; 12; 17; 22;
    5;  9; 14; 20; 5;  9; 14; 20; 5;  9; 14; 20; 5;  9; 14; 20;
    4; 11; 16; 23; 4; 11; 16; 23; 4; 11; 16; 23; 4; 11; 16; 23;
    6; 10; 15; 21; 6; 10; 15; 21; 6; 10; 15; 21; 6; 10; 15; 21 ].

Record state := mkState { sA : Z; sB : Z; sC : Z; sD : Z }.

Definition init : state :=
  mkState 0x67452301 0xefcdab89 0x98badcfe 0x10325476.

(** Four bytes, least significant first, make one word. *)
Definition word_le (b0 b1 b2 b3 : Z) : Z :=
  Z.lor b0 (Z.lor (Z.shiftl b1 8) (Z.lor (Z.shiftl b2 16) (Z.shiftl b3 24))).

Fixpoint words_le (bs : list Z) : list Z :=
  match bs with
  | b0 :: b1 :: b2 :: b3 :: rest => word_le b0 b1 b2 b3 :: words_le rest
  | _ => []
  end.

(** The auxiliary function and message-word index of step [i]. *)
Definition mix (i b c d : Z) : Z * Z :=
  if i <? 16 then (Z.lor (Z.land b c) (Z.land (not32 b) d), i)
  else if i <? 32 then
    (Z.lor (Z.land d b) (Z.land (not32 d) c), (5 * i + 1) mod 16)
  else if i <? 48 then (Z.lxor b (Z.lxor c d), (3 * i + 5) mod 16)
  else (Z.lxor c (Z.lor b (not32 d)), (7 * i) mod 16).

Definition step (m : list Z) (st : state) (i : Z) : state :=
  let '(f, g) := mix i (sB st) (sC st) (sD st) in
  let k := nth (Z.to_nat i) K 0 in
  let s := nth (Z.to_nat i) S 0 in
  let w := nth (Z.to_nat g) m 0 in
  let f' := add32 (add32 (add32 f (sA st)) k) w in
  mkState (sD st) (add32 (sB st) (rotl32 f' s)) (sB st) (sC st).

Definition rounds : list Z := map Z.of_nat (seq 0 64).

(** One 64-byte block folded into the chaining value. *)
Definition compress (st : state) (block : list Z) : state :=
  let r := fold_left (step (words_le block)) rounds st in
  mkState (add32 (sA st) (sA r)) (add32 (sB st) (sB r))
          (add32 (sC st) (sC r)) (add32 (sD st) (sD r)).

Definition le_bytes (n : nat) (x : Z) : list Z :=
  map (fun i => Z.land (Z.shiftr x (8 * Z.of_nat i)) 0xff) (seq 0 n).

(** Padding: a [0x80] byte, zeros up to 56 modulo 64, then the bit length
    on 64 bits, least significant byte first. *)
Definition pad (msg : list Z) : list Z :=
  let len := Z.of_nat (List.length msg) in
  let zeros := Z.to_nat ((55 - len) mod 64) in
  msg ++ 0x80 :: repeat 0 zeros ++ le_bytes 8 ((8 * len) mod 2 ^ 64).

(** Consume the padded message block by block; [buf] holds the bytes of the
    current block in reverse. *)
Fixpoint absorb (st : state) (buf : list Z) (n : nat) (bs : list Z) : state :=
  match bs with
  | [] => st
  | b :: rest =>
      match n with
      | 63%nat => absorb (compress st (rev (b :: buf))) [] 0%nat rest
      | _ => absorb st (b :: buf) (Datatypes.S n) rest
      end
  end.

Definition digest (msg : list Z) : list Z :=
  let st := absorb init [] 0%nat (pad msg) in
  le_bytes 4 (sA st) ++ le_bytes 4 (sB st)
    ++ le_bytes 4 (sC st) ++ le_bytes 4 (sD st).

Definition hex_digit (x : Z) : ascii :=
  if x <? 10 then ascii_of_nat (Z.to_nat (48 + x))
  else ascii_of_nat (Z.to_nat (87 + x)).

Fixpoint hex (bs : list Z) : string :=
  match bs with
  | [] => EmptyString
  | b :: rest =>
      String (hex_digit (Z.shiftr b 4))
             (String (hex_digit (Z.land b 0xf)) (hex rest))
  end.

(** [hashlib.md5(msg).hexdigest()] *)
Definition hexdigest (msg : list Z) : string := hex (digest msg).

End MD5.

Arguments MD5.hexdigest : simpl never.

(** ** Python built-ins on [str], [int] and [bytes] *)

Module Py.

(** [str(n)] for an [int]: the shortest decimal numeral, with a leading
    minus sign for negative numbers. *)
Definition str_int (n : Z) : string := NilZero.string_of_int (Z.to_int n).

(** [int(s)] on a decimal numeral, the inverse of [str]. *)
Definition int_of_str (s : string) : option Z :=
  option_map Z.of_int (NilZero.int_of_string s).

(** [str(x)] for a value that is an [int] or [None]. *)
Definition str_opt (x : option Z) : string :=
  match x with
  | Some n => str_int n
  | None => "None"
  end.

(** [''.join(parts)] *)
Definition join (parts : list string) : string :=
  fold_right String.append EmptyString parts.

(** [s.encode()]: UTF-8, here for code points below 256. *)
Fixpoint encode (s : string) : list Z :=
  match s with
  | EmptyString => []
  | String c rest =>
      let n := Z.of_nat (nat_of_ascii c) in
      if n <? 128 then n :: encode rest
      else Z.lor 0xc0 (Z.shiftr n 6) :: Z.lor 0x80 (Z.land n 0x3f)
             :: encode rest
  end.

(** [c in s] for a one-character [c]. *)
Fixpoint contains (c : ascii) (s : string) : bool :=
  match s with
  | EmptyString => false
  | String x rest => Ascii.eqb c x || contains c rest
  end.

(** [s.startswith(p)] *)
Fixpoint startswith (p s : string) : bool :=
  match p with
  | EmptyString => true
  | String a p' =>
      match s with
      | EmptyString => false
      | String b s' => Ascii.eqb a b && startswith p' s'
      end
  end.

(** [s[1:]] *)
Definition tail (s : string) : string :=
  match s with
  | EmptyString => EmptyString
  | String _ rest => rest
  end.

(** The characters below U+0100 that [str.isdigit] accepts: the ten
    decimal digits and the superscripts two (U+00B2), three (U+00B3) and
    one (U+00B9). *)
Definition isdigit_char (c : ascii) : bool :=
  let n := nat_of_ascii c in
  ((48 <=? n) && (n <=? 57))%nat
  || (n =? 178)%nat || (n =? 179)%nat || (n =? 185)%nat.

(** The decimal digits [0] to [9]. *)
Definition isdecimal_char (c : ascii) : bool :=
  let n := nat_of_ascii c in ((48 <=? n) && (n <=? 57))%nat.

Fixpoint forallb_string (p : ascii -> bool) (s : string) : bool :=
  match s with
  | EmptyString => true
  | String c rest => p c && forallb_string p rest
  end.

(** [s.isdigit()]: every character is a digit and there is at least one. *)
Definition isdigit (s : string) : bool :=
  match s with
  | EmptyString => false
  | _ => forallb_string isdigit_char s
  end.

End Py.

(** ** Exceptions *)

Inductive exn : Type :=
| AssertionError   (* a failed [assert] *)
| AttributeError   (* attribute access on an object that lacks it *)
| NotFound         (* [first_or_404] found no row *)
| IntegrityError.  (* a unique constraint rejected the commit *)

Inductive result (A : Type) : Type :=
| Ok (a : A)
| Raise (e : exn).

Arguments Ok {A} a.
Arguments Raise {A} e.

(** ** The models: one record per mapped class, one field per column *)

Module Customer.

Record t := mk {
  id : option Z;
  name : string;
  email : string;
  phone_number : string
}.

(** [assert '@' in address; return address] *)
Definition validate_email (address : string) : result string :=
  if Py.contains "@" address then Ok address else Raise AssertionError.

(** [assert number.startswith('8') or number.startswith('+7')], then, for a
    number that starts with ['+'], [assert number[1:].isdigit()]. *)
Definition validate_phone_number (number : string) : result string :=
  if Py.startswith "8" number || Py.startswith "+7" number then
    if Py.startswith "+" number then
      if Py.isdigit (Py.tail number) then Ok number else Raise AssertionError
    else Ok number
  else Raise AssertionError.

(** [Customer(name, email, phone_number)]: the attributes are assigned in
    this order and each assignment runs the validator of its column. *)
Definition init (name email phone_number : string) : result t :=
  match validate_email email with
  | Raise e => Raise e
  | Ok email' =>
      match validate_phone_number phone_number with
      | Raise e => Raise e
      | Ok phone' => Ok (mk None name email' phone')
      end
  end.

End Customer.

Module Category.

Record t := mk {
  id : option Z;
  name : string
}.

Definition init (name : string) : t := mk None name.

End Category.

Module Currency.

Record t := mk {
  id : option Z;
  currency_code : option Z;
  currency_name : string;
  currency_desc : string
}.

Definition init (name desc : string) (code : option Z) : t :=
  mk None code name desc.

End Currency.

Module Books.

Record t := mk {
  id : option Z;
  ISBN : string;
  category_id : option Z;
  cost : float;
  description : option string;
  currency_id : Z
}.

Definition init (ISBN : string) (category_id : option Z) (cost : float)
    (currency_id : Z) (description : option string) : t :=
  mk None ISBN category_id cost description currency_id.

End Books.

Module Transaction.

(** [date] is the reading of the clock at construction time; [books] is the
    relationship collection, in append order. *)
Record t := mk {
  transaction_hash : string;
  customer_id : Z;
  date : Z;
  currency_id : Z;
  books : list Books.t
}.

End Transaction.

(** The objects a caller can put in the [books] list. *)
Inductive value : Type :=
| VNone
| VInt (n : Z)
| VStr (s : string)
| VCustomer (c : Customer.t)
| VCategory (c : Category.t)
| VCurrency (c : Currency.t)
| VBooks (b : Books.t)
| VTransaction (t : Transaction.t).

(** [isinstance(v, Books)] *)
Definition isinstance_Books (v : value) : bool :=
  match v with
  | VBooks _ => true
  | _ => false
  end.

(** [v.id]: four of the mapped classes have an [id] column; [Transaction] is
    keyed by [transaction_hash] and has none. *)
Definition getattr_id (v : value) : result (option Z) :=
  match v with
  | VCustomer c => Ok (Customer.id c)
  | VCategory c => Ok (Category.id c)
  | VCurrency c => Ok (Currency.id c)
  | VBooks b => Ok (Books.id b)
  | VNone | VInt _ | VStr _ | VTransaction _ => Raise AttributeError
  end.

(** [for book in books: assert isinstance(book, Books); self.books.append(book)] *)
Fixpoint append_books (acc : list Books.t) (books : list value)
  : result (list Books.t) :=
  match books with
  | [] => Ok acc
  | VBooks b :: rest => append_books (acc ++ [b]) rest
  | _ :: _ => Raise AssertionError
  end.

(** [Transaction(transaction_hash, customer_id, currency_id, books)], with
    [now] the value of [datetime.now()]. *)
Definition Transaction_init (now : Z) (transaction_hash : string)
    (customer_id currency_id : Z) (books : list value) : result Transaction.t :=
  match append_books [] books with
  | Raise e => Raise e
  | Ok bs => Ok (Transaction.mk transaction_hash customer_id now currency_id bs)
  end.

(** ** The session *)

(** The tables the two class methods read and write, rows in insertion
    order. *)
Record db := mkDb {
  transactions : list Transaction.t;
  categories : list Category.t;
  books : list Books.t
}.

(** A computation reads and updates the session and returns a value or raises;
    what it wrote before raising stays written. *)
Definition M (A : Type) : Type := db -> result A * db.

Definition ret {A} (a : A) : M A := fun s => (Ok a, s).

Definition raise {A} (e : exn) : M A := fun s => (Raise e, s).

Definition bind {A B} (m : M A) (k : A -> M B) : M B :=
  fun s =>
    match m s with
    | (Ok a, s') => k a s'
    | (Raise e, s') => (Raise e, s')
    end.

Definition lift {A} (r : result A) : M A := fun s => (r, s).

Declare Scope py_scope.
Delimit Scope py_scope with py.
Notation "x <- m ;; k" := (bind m (fun x => k))
  (at level 61, m at next level, right associativity) : py_scope.
Notation "m ;;; k" := (bind m (fun _ => k))
  (at level 61, right associativity) : py_scope.

(** The row whose primary key is [h]. *)
Definition has_hash (h : string) (t : Transaction.t) : bool :=
  String.eqb (Transaction.transaction_hash t) h.

(** [Transaction.query.get(transaction_hash)] *)
Definition query_get (transaction_hash : string) : M (option Transaction.t) :=
  fun s => (Ok (find (has_hash transaction_hash) (transactions s)), s).

(** [db.session.add(trans); db.session.commit()] for a new transaction: the
    row joins the table.  Foreign keys and the cascade to the association
    table belong to the engine; the row keeps its books in [Transaction.books].
    The books are taken to be stored rows: the insertion of books that are
    not stored yet is not represented, nor is the flush of other pending
    objects ([Transaction_init_session] shows where those come from). *)
Definition add_commit_transaction (trans : Transaction.t) : M unit :=
  fun s =>
    (Ok tt, mkDb (transactions s ++ [trans]) (categories s) (books s)).

(** [''.join(str(b.id) for b in books)] *)
Fixpoint join_ids (books : list value) : result string :=
  match books with
  | [] => Ok EmptyString
  | b :: rest =>
      match getattr_id b with
      | Raise e => Raise e
      | Ok i =>
          match join_ids rest with
          | Raise e => Raise e
          | Ok s => Ok (Py.str_opt i ++ s)%string
          end
      end
  end.

(** [hashlib.md5((''.join(str(b.id) for b in books)).encode()).hexdigest()] *)
Definition hash_books (books : list value) : result string :=
  match join_ids books with
  | Raise e => Raise e
  | Ok s => Ok (MD5.hexdigest (Py.encode s))
  end.

(** [Transaction.create_transaction(customer_id, currency_id, books)] *)
Definition create_transaction (now : Z) (customer_id currency_id : Z)
    (books : list value) : M Transaction.t :=
  (transaction_hash <- lift (hash_books books) ;;
   found <- query_get transaction_hash ;;
   match found with
   | Some trans => ret trans
   | None =>
       trans <- lift (Transaction_init now transaction_hash customer_id
                        currency_id books) ;;
       add_commit_transaction trans ;;;
       ret trans
   end)%py.

(** [Category.query.filter(Category.name == category).first_or_404()] *)
Definition category_first_or_404 (category : string) : M Category.t :=
  fun s =>
    match find (fun c => String.eqb (Category.name c) category) (categories s) with
    | Some c => ret c s
    | None => raise NotFound s
    end.

(** The key an autoincrement column gives the next row: one more than the
    largest key in use, and 1 in an empty table. *)
Definition next_id (rows : list Books.t) : Z :=
  match flat_map (fun b => match Books.id b with
                           | Some i => [i]
                           | None => []
                           end) rows with
  | [] => 1
  | i :: ids => 1 + fold_left Z.max ids i
  end.

(** [db.session.add(book); db.session.commit()] for a new book: the unique
    constraint on [ISBN] rejects a duplicate, otherwise the row is inserted
    under a fresh key.  The foreign keys and the default that the engine
    writes for a missing [description] are not represented. *)
Definition add_commit_book (book : Books.t) : M unit :=
  fun s =>
    if existsb (fun b => String.eqb (Books.ISBN b) (Books.ISBN book)) (books s)
    then (Raise IntegrityError, s)
    else
      let row := Books.mk (Some (next_id (books s))) (Books.ISBN book)
                   (Books.category_id book) (Books.cost book)
                   (Books.description book) (Books.currency_id book) in
      (Ok tt, mkDb (transactions s) (categories s) (books s ++ [row])).

(** [Books.add_book(ISBN, category, cost, currency_id)] *)
Definition add_book (ISBN category : string) (cost : float) (currency_id : Z)
  : M unit :=
  (category <- category_first_or_404 category ;;
   let book := Books.init ISBN (Category.id category) cost currency_id None in
   add_commit_book book)%py.

(** ** The constructor and the unit of work *)

(** The session as the constructor sees it: the stored tables and the
    transactions that are attached to the session but not written yet; the
    next flush writes them. *)
Record session := mkSession {
  stored : db;
  pending : list Transaction.t
}.

(** A book that has a key has been flushed: it belongs to the session. *)
Definition persistent (b : Books.t) : bool :=
  match Books.id b with
  | Some _ => true
  | None => false
  end.

(** The loop of [__init__] with its effect on the session.  [acc] is
    [self.books] so far.  [self.books.append(book)] also appends [self] to
    [book.transactions] ([back_populates]), and when [book] belongs to the
    session that cascades [self] into the session: [attached] records it.
    A failing [assert] stops the loop where it stands. *)
Fixpoint append_loop (acc : list Books.t) (attached : bool)
    (books : list value) : result unit * (list Books.t * bool) :=
  match books with
  | [] => (Ok tt, (acc, attached))
  | VBooks b :: rest => append_loop (acc ++ [b]) (attached || persistent b) rest
  | _ :: _ => (Raise AssertionError, (acc, attached))
  end.

(** [Transaction(transaction_hash, customer_id, currency_id, books)] in a
    session: the object the loop has built, whole or not, is pending as soon
    as one of the books appended to it belongs to the session. *)
Definition Transaction_init_session (now : Z) (transaction_hash : string)
    (customer_id currency_id : Z) (books : list value) (s : session)
  : result Transaction.t * session :=
  let '(r, (acc, attached)) := append_loop [] false books in
  let self := Transaction.mk transaction_hash customer_id now currency_id acc in
  let s' := if attached then mkSession (stored s) (pending s ++ [self]) else s in
  match r with
  | Ok _ => (Ok self, s')
  | Raise e => (Raise e, s')
  end.

(** ** Numbers: [int] and [float] *)

(** A Python number as [sum] and [round] meet it. *)
Inductive number : Type :=
| NInt (n : Z)
| NFloat (f : float).




(** The integer nearest to [p / q] for positive [q], ties to even. *)
Definition round_half_even (p q : Z) : Z :=
  let n := p / q in
  let r := p mod q in
  if 2 * r <? q then n
  else if 2 * r =? q then (if Z.even n then n else n + 1)
  else n + 1.

(** The double nearest to [p / q] for positive [p] and [q], ties to even, as
    a mantissa of 53 bits and an exponent. *)
Definition nearest_ratio (p q : Z) : Z * Z :=
  let e0 := Z.log2 p - Z.log2 q - 53 in
  let scaled (e : Z) : Z * Z :=
    if 0 <=? e then (p, q * 2 ^ e) else (p * 2 ^ (- e), q) in
  let e := if fst (scaled e0) / snd (scaled e0) <? 2 ^ 53 then e0 else e0 + 1 in
  let '(a, b) := scaled e in
  (round_half_even a b, e).

(** [round(x, 2)] for a [float]: the exact value of [x] is rounded to the
    nearest multiple of 1/100, ties to even, and the double nearest to that
    decimal is returned.  Zeros, infinities, NaN and the doubles that are
    integers come back as they are. *)
Definition float_round2 (x : float) : float :=
  match Prim2SF x with
  | S754_finite s m e =>
      if 0 <=? e then x
      else
        let n := round_half_even (Zpos m * 100) (2 ^ (- e)) in
        if n =? 0 then (if s then neg_zero else zero)
        else
          let '(m', e') := nearest_ratio n 100 in
          SF2Prim (S754_finite s (Z.to_pos m') e')
  | _ => x
  end.



(** The binary64 sum of a list of costs, added from the left to zero. *)
Definition float_sum (costs : list float) : float :=
  fold_left PrimFloat.add costs zero.


(** ** The [Customer] checks as the documentation words them *)

(** "Fails unless the string contains the character [@]." *)
Definition documented_email_failure (email : string) : Prop :=
  Py.contains "@" email = false.

(** "Fails unless the string starts with [8] or [+7]; if it starts with [+],
    every remaining character must be a decimal digit." *)
Definition documented_phone_failure (number : string) : Prop :=
  (Py.startswith "8" number = false /\ Py.startswith "+7" number = false)
  \/ (Py.startswith "+" number = true
      /\ exists c, In c (list_ascii_of_string (Py.tail number))
                   /\ Py.isdecimal_char c = false).

(** ** Exhaustive comparison of the two orders for small keys *)

(** The hash of a two-book list whose keys are [x] and [y]. *)
Definition pair_hash (x y : Z) : string :=
  MD5.hexdigest (Py.encode (Py.str_int x ++ Py.str_int y)).

Definition order_matters (x y : Z) : bool :=
  negb (String.eqb (pair_hash x y) (pair_hash y x)).

Definition small_ids : list Z := map Z.of_nat (seq 0 50).

(** [w * n] *)
Fixpoint repeat_string (w : string) (n : nat) : string :=
  match n with
  | O => EmptyString
  | Datatypes.S k => (w ++ repeat_string w k)%string
  end.

(** Either the two id strings commute under concatenation, or the two hashes
    differ. *)
Definition order_checked (x y : Z) : bool :=
  String.eqb (Py.str_int x ++ Py.str_int y) (Py.str_int y ++ Py.str_int x)
  || order_matters x y.

(** [order_checked] on every pair [x < y] drawn from [ids]. *)
Definition orders_checked (ids : list Z) : bool :=
  forallb (fun x =>
    forallb (fun y => if x <? y then order_checked x y else true) ids) ids.

(** ** Sample rows on which the operations are run *)

Definition sample_book (i : Z) : Books.t :=
  Books.mk (Some i) (Py.str_int i) (Some 1) 0%float None 1.

Definition sample_customer : Customer.t :=
  Customer.mk (Some 1) "x" "a@b.com" "+79001234567".

Definition empty_db : db := mkDb [] [] [].

(** The phone number made of [+], [7] and the superscript two (U+00B2). *)
Definition superscript_phone : string :=
  String "+" (String "7" (String "178" EmptyString)).

(** ** The remaining behaviour of the module *)

(** [sep.join(parts)] *)
Fixpoint join_sep (sep : string) (parts : list string) : string :=
  match parts with
  | [] => EmptyString
  | [p] => p
  | p :: rest => (p ++ sep ++ join_sep sep rest)%string
  end.

(** [not _.startswith('_')] *)
Definition public (k : string) : bool := negb (Py.startswith "_" k).

(** [Meta.__repr__]: [dict] is [self.__dict__] in insertion order and [str]
    is the built-in rendering of an attribute value.
    ['<{}({})>'.format(self.__tablename__, ', '.join(_ + ': ' + str(atr)
    for _, atr in self.__dict__.items() if not _.startswith('_')))] *)
Definition Meta_repr {V : Type} (str : V -> string) (tablename : string)
    (dict : list (string * V)) : string :=
  ("<" ++ tablename ++ "("
   ++ join_sep ", "
        (map (fun kv => fst kv ++ ": " ++ str (snd kv))
             (filter (fun kv => public (fst kv)) dict))
   ++ ")>")%string.

(** The row the [category_desc] back reference of a stored book resolves to:
    the category whose primary key is the book's [category_id]. *)
Definition category_desc (s : db) (b : Books.t) : option Category.t :=
  match Books.category_id b with
  | None => None
  | Some k =>
      find (fun c => match Category.id c with
                     | Some i => i =? k
                     | None => false
                     end) (categories s)
  end.

(** [Books.category]: [self.category_desc.name]; without a resolvable
    category the attribute access is made on [None]. *)
Definition Books_category (s : db) (b : Books.t) : result string :=
  match category_desc s b with
  | Some c => Ok (Category.name c)
  | None => Raise AttributeError
  end.

(** The characters [hexdigest] is made of. *)
Definition is_lower_hex (c : ascii) : bool :=
  let n := nat_of_ascii c in
  ((48 <=? n) && (n <=? 57) || (97 <=? n) && (n <=? 102))%nat.

(** ** Checks of the built-ins against known values *)

Example md5_empty : MD5.hexdigest (Py.encode EmptyString) = "d41d8cd98f00b204e9800998ecf8427e".
Proof. vm_compute. reflexivity. Qed.

Example md5_abc : MD5.hexdigest (Py.encode "abc") = "900150983cd24fb0d6963f7d28e17f72".
Proof. vm_compute. reflexivity. Qed.

Example md5_message_digest :
  MD5.hexdigest (Py.encode "message digest") = "f96b697d7cb7938d525a2f31aaf161d0".
Proof. vm_compute. reflexivity. Qed.

Example md5_two_blocks :
  MD5.hexdigest
    (Py.encode
       "12345678901234567890123456789012345678901234567890123456789012345678901234567890")
  = "57edf4a22be3c955ac49da2e2107b67a".
Proof. vm_compute. reflexivity. Qed.

Example md5_55 :
  MD5.hexdigest (repeat 97 55) = "ef1772b6dff9a122358552954ad0df65".
Proof. vm_compute. reflexivity. Qed.

Example md5_56 :
  MD5.hexdigest (repeat 97 56) = "3b0c8ac703f828b04c6c197006d17218".
Proof. vm_compute. reflexivity. Qed.

Example md5_64 :
  MD5.hexdigest (repeat 97 64) = "014842d480b571495a4a0363793f7367".
Proof. vm_compute. reflexivity. Qed.

Example md5_superscript :
  MD5.hexdigest (Py.encode (String "7" (String "178" EmptyString)))
  = "8605cebc3006b9443e604eb278af6f75".
Proof. vm_compute. reflexivity. Qed.

Example str_int_examples :
  Py.str_int 0 = "0" /\ Py.str_int (-5) = "-5" /\ Py.str_int 1203 = "1203".
Proof. vm_compute. repeat split. Qed.

(** ** Results *)

Lemma Ok_inj {A} (a b : A) : Ok a = Ok b -> a = b.
Proof. intros H. injection H as H. exact H. Qed.

(** ** Decimal rendering *)

(** [str] of an [int] reads back as the same number, so it is injective. *)
Lemma int_of_str_str_int (n : Z) : Py.int_of_str (Py.str_int n) = Some n.
Proof.
  unfold Py.int_of_str, Py.str_int.
  rewrite NilZero.isi.
  - simpl. now rewrite DecimalZ.of_to.
  - destruct n; simpl; try discriminate.
    intros [= H]. now apply DecimalPos.Unsigned.to_uint_nonnil in H.
  - destruct n; simpl; try discriminate.
    intros [= H]. now apply DecimalPos.Unsigned.to_uint_nonnil in H.
Qed.

Lemma str_int_inj (n m : Z) : Py.str_int n = Py.str_int m -> n = m.
Proof.
  intros H. apply (f_equal Py.int_of_str) in H.
  rewrite !int_of_str_str_int in H. congruence.
Qed.

(** ** Strings *)

Lemma append_nil_r (s : string) : (s ++ EmptyString)%string = s.
Proof. induction s as [| c s IH]; simpl; [reflexivity | now rewrite IH]. Qed.

(** Two concatenations that agree split at the same place when their left
    parts have the same length. *)
Lemma append_inj_length (s1 s2 t1 t2 : string) :
  String.length s1 = String.length s2 ->
  (s1 ++ t1 = s2 ++ t2)%string -> s1 = s2 /\ t1 = t2.
Proof.
  revert s2. induction s1 as [| c s1 IH]; intros [| d s2] Hlen Heq;
    simpl in *; try discriminate.
  - now split.
  - injection Heq as -> Heq. injection Hlen as Hlen.
    destruct (IH _ Hlen Heq) as [-> ->]. now split.
Qed.

Lemma forallb_string_spec (p : ascii -> bool) (s : string) :
  Py.forallb_string p s = false <->
  exists c, In c (list_ascii_of_string s) /\ p c = false.
Proof.
  induction s as [| c s IH]; simpl.
  - split; [discriminate | intros (c & [] & _)].
  - rewrite andb_false_iff, IH. split.
    + intros [Hc | (d & Hd & Hp)]; [exists c | exists d]; auto.
    + intros (d & [<- | Hd] & Hp); [left | right; exists d]; auto.
Qed.

(** ** The constructor of [Transaction] *)

Lemma append_books_genuine (bs acc : list Books.t) :
  append_books acc (map VBooks bs) = Ok (acc ++ bs).
Proof.
  revert acc. induction bs as [| b bs IH]; intros acc; simpl.
  - now rewrite app_nil_r.
  - rewrite IH, <- app_assoc. reflexivity.
Qed.

Lemma append_books_stranger (books : list value) (acc : list Books.t) :
  (exists v, In v books /\ isinstance_Books v = false) ->
  append_books acc books = Raise AssertionError.
Proof.
  revert acc. induction books as [| x books IH]; intros acc (v & Hin & Hv).
  - destruct Hin.
  - destruct Hin as [-> | Hin].
    + destruct v; simpl in *; try reflexivity; discriminate.
    + destruct x; simpl; try reflexivity. apply IH. now exists v.
Qed.

Lemma Transaction_init_genuine now h c cur (bs : list Books.t) :
  Transaction_init now h c cur (map VBooks bs) = Ok (Transaction.mk h c now cur bs).
Proof. unfold Transaction_init. now rewrite append_books_genuine. Qed.

(** ** The derived hash *)

Lemma join_ids_genuine (bs : list Books.t) :
  join_ids (map VBooks bs)
  = Ok (Py.join (map (fun b => Py.str_opt (Books.id b)) bs)).
Proof.
  induction bs as [| b bs IH]; simpl; [reflexivity | now rewrite IH].
Qed.

Lemma hash_books_genuine (bs : list Books.t) :
  hash_books (map VBooks bs)
  = Ok (MD5.hexdigest
          (Py.encode (Py.join (map (fun b => Py.str_opt (Books.id b)) bs)))).
Proof. unfold hash_books. now rewrite join_ids_genuine. Qed.

Lemma str_opt_numeric (bs : list Books.t) (ids : list Z) :
  map Books.id bs = map Some ids ->
  map (fun b => Py.str_opt (Books.id b)) bs = map Py.str_int ids.
Proof.
  revert ids. induction bs as [| b bs IH]; intros [| i ids] H;
    simpl in *; try discriminate; [reflexivity |].
  injection H as Hb H. rewrite Hb. simpl. f_equal. now apply IH.
Qed.

(** ** The two branches of [create_transaction] *)

Ltac run_factory :=
  unfold create_transaction, bind, lift, query_get, ret, add_commit_transaction.

Lemma create_transaction_found now c cur bks h t s :
  hash_books bks = Ok h ->
  find (has_hash h) (transactions s) = Some t ->
  create_transaction now c cur bks s = (Ok t, s).
Proof.
  intros Hh Hf. run_factory.
  rewrite Hh. now rewrite Hf.
Qed.

Lemma create_transaction_fresh now c cur bks h t s :
  hash_books bks = Ok h ->
  find (has_hash h) (transactions s) = None ->
  Transaction_init now h c cur bks = Ok t ->
  create_transaction now c cur bks s
  = (Ok t, mkDb (transactions s ++ [t]) (categories s) (books s)).
Proof.
  intros Hh Hf Hi. run_factory.
  rewrite Hh. rewrite Hf, Hi. reflexivity.
Qed.

Lemma create_transaction_rejected now c cur bks h e s :
  hash_books bks = Ok h ->
  find (has_hash h) (transactions s) = None ->
  Transaction_init now h c cur bks = Raise e ->
  create_transaction now c cur bks s = (Raise e, s).
Proof.
  intros Hh Hf Hi. run_factory.
  rewrite Hh. rewrite Hf, Hi. reflexivity.
Qed.

Lemma create_transaction_no_id now c cur bks e s :
  hash_books bks = Raise e ->
  create_transaction now c cur bks s = (Raise e, s).
Proof.
  intros Hh. run_factory. now rewrite Hh.
Qed.

Lemma Transaction_init_hash now h c cur bks t :
  Transaction_init now h c cur bks = Ok t ->
  Transaction.transaction_hash t = h.
Proof.
  unfold Transaction_init. destruct (append_books [] bks); intros [= <-].
  reflexivity.
Qed.

Lemma find_has_hash_hash h t l :
  find (has_hash h) l = Some t -> Transaction.transaction_hash t = h /\ In t l.
Proof.
  intros H. apply find_some in H as [Hin Hh]. split; [| exact Hin].
  now apply String.eqb_eq.
Qed.

Lemma find_app_fresh h t l :
  find (has_hash h) l = None ->
  Transaction.transaction_hash t = h ->
  find (has_hash h) (l ++ [t]) = Some t.
Proof.
  intros Hnone Ht. induction l as [| x l IH]; simpl in *.
  - unfold has_hash. rewrite Ht, String.eqb_refl. reflexivity.
  - destruct (has_hash h x); [discriminate | now apply IH].
Qed.

(** With a unique primary key, the row [query.get] returns for a hash is
    the row that carries it. *)
Lemma find_unique h t l :
  NoDup (map Transaction.transaction_hash l) ->
  In t l -> Transaction.transaction_hash t = h ->
  find (has_hash h) l = Some t.
Proof.
  intros Hnd Hin Ht. induction l as [| x l IH]; [destruct Hin |].
  simpl in *. inversion Hnd as [| ? ? Hx Hnd']; subst.
  unfold has_hash at 1. destruct (String.eqb_spec (Transaction.transaction_hash x)
                                    (Transaction.transaction_hash t)) as [E | E].
  - destruct Hin as [-> | Hin]; [reflexivity |].
    exfalso. apply Hx. rewrite E. now apply in_map.
  - destruct Hin as [-> | Hin]; [congruence | now apply IH].
Qed.

(** Whatever the first call returned, a second call with the same arguments
    returns it again and leaves the session as the first call left it. *)
Lemma create_transaction_twice now1 now2 c cur bks s :
  create_transaction now2 c cur bks (snd (create_transaction now1 c cur bks s))
  = create_transaction now1 c cur bks s.
Proof.
  destruct (hash_books bks) as [h | e] eqn:Hh.
  2:{ now rewrite !(create_transaction_no_id _ _ _ _ _ _ Hh). }
  destruct (find (has_hash h) (transactions s)) as [t |] eqn:Hf.
  { rewrite (create_transaction_found now1 _ _ _ _ _ _ Hh Hf). simpl.
    now apply create_transaction_found with h. }
  destruct (Transaction_init now1 h c cur bks) as [t | e] eqn:Hi.
  - rewrite (create_transaction_fresh _ _ _ _ _ _ _ Hh Hf Hi). simpl.
    apply create_transaction_found with h; [exact Hh |]. simpl.
    apply find_app_fresh; [exact Hf |].
    now apply Transaction_init_hash in Hi.
  - rewrite (create_transaction_rejected _ _ _ _ _ _ _ Hh Hf Hi). simpl.
    apply create_transaction_rejected with h; [exact Hh | exact Hf |].
    unfold Transaction_init in *.
    destruct (append_books [] bks); [discriminate | exact Hi].
Qed.

(** A list of genuine books always yields a persisted transaction that
    carries the derived hash and that [query.get] finds under it. *)
Lemma create_transaction_genuine now c cur (bs : list Books.t) s :
  exists t s',
    create_transaction now c cur (map VBooks bs) s = (Ok t, s')
    /\ hash_books (map VBooks bs) = Ok (Transaction.transaction_hash t)
    /\ find (has_hash (Transaction.transaction_hash t)) (transactions s') = Some t.
Proof.
  pose proof (hash_books_genuine bs) as Hh.
  set (h := MD5.hexdigest _) in Hh.
  destruct (find (has_hash h) (transactions s)) as [t |] eqn:Hf.
  - exists t, s. split; [now apply create_transaction_found with h |].
    destruct (find_has_hash_hash _ _ _ Hf) as [E _]. rewrite E. now split.
  - eexists _, _. split.
    + apply create_transaction_fresh with h; [exact Hh | exact Hf |].
      apply Transaction_init_genuine.
    + simpl. split; [exact Hh | now apply find_app_fresh].
Qed.

(** X21. The factory keeps the primary key unique: if no two stored
    transactions share a hash before a call, none do after it. *)
Lemma create_transaction_keeps_key_unique now c cur bks s :
  NoDup (map Transaction.transaction_hash (transactions s)) ->
  NoDup (map Transaction.transaction_hash
           (transactions (snd (create_transaction now c cur bks s)))).
Proof.
  intros Hnd. destruct (hash_books bks) as [h | e] eqn:Hh.
  2:{ now rewrite (create_transaction_no_id _ _ _ _ _ _ Hh). }
  destruct (find (has_hash h) (transactions s)) as [t |] eqn:Hf.
  { now rewrite (create_transaction_found _ _ _ _ _ _ _ Hh Hf). }
  destruct (Transaction_init now h c cur bks) as [t | e] eqn:Hi.
  2:{ now rewrite (create_transaction_rejected _ _ _ _ _ _ _ Hh Hf Hi). }
  rewrite (create_transaction_fresh _ _ _ _ _ _ _ Hh Hf Hi). simpl.
  rewrite map_app. simpl. apply NoDup_app; [exact Hnd | repeat constructor; easy |].
  intros k Hk [<- | []]. apply in_map_iff in Hk as (t' & Ek & Hin).
  apply (find_none _ _ Hf) in Hin. unfold has_hash in Hin.
  apply String.eqb_neq in Hin. apply Hin. rewrite Ek.
  symmetry. now apply Transaction_init_hash in Hi.
Qed.

(** ** Properties of [create_transaction] *)

(** C1. Idempotence: for every list of books, a call to [create_transaction]
    returns a persisted transaction, and a second call with the same
    [customer_id], [currency_id] and book list (made at any later time)
    returns that same record, with the same [transaction_hash], and leaves
    the session exactly as the first call left it, so no new record is
    created. *)
Theorem create_transaction_idempotent
    (now1 now2 c cur : Z) (bs : list Books.t) (s : db) :
  exists t s1,
    create_transaction now1 c cur (map VBooks bs) s = (Ok t, s1)
    /\ In t (transactions s1)
    /\ hash_books (map VBooks bs) = Ok (Transaction.transaction_hash t)
    /\ create_transaction now2 c cur (map VBooks bs) s1 = (Ok t, s1).
Proof.
  destruct (create_transaction_genuine now1 c cur bs s) as (t & s1 & H1 & Hh & Hf).
  exists t, s1. repeat split; try assumption.
  - now apply find_has_hash_hash in Hf.
  - pose proof (create_transaction_twice now1 now2 c cur (map VBooks bs) s) as H2.
    rewrite H1 in H2. exact H2.
Qed.

(** C2. For every ordered list of books with numeric ids, the
    [transaction_hash] of the transaction that [create_transaction] returns
    is the MD5 hex digest of the concatenation of the ids, each rendered as a
    decimal string, in the order of the list. *)
Theorem transaction_hash_is_md5_of_ids
    (now c cur : Z) (bs : list Books.t) (ids : list Z) (s : db) :
  map Books.id bs = map Some ids ->
  exists t s',
    create_transaction now c cur (map VBooks bs) s = (Ok t, s')
    /\ Transaction.transaction_hash t
       = MD5.hexdigest (Py.encode (Py.join (map Py.str_int ids))).
Proof.
  intros Hids.
  destruct (create_transaction_genuine now c cur bs s) as (t & s' & H1 & Hh & _).
  exists t, s'. split; [exact H1 |].
  rewrite hash_books_genuine, (str_opt_numeric _ _ Hids) in Hh.
  now injection Hh as <-.
Qed.

(** The books with ids 12 and 3, in this order, hash to the digest of ["123"]. *)
Lemma transaction_hash_is_md5_of_ids_witness :
  exists t s',
    create_transaction 5 1 1 [VBooks (sample_book 12); VBooks (sample_book 3)]
      empty_db = (Ok t, s')
    /\ Transaction.transaction_hash t = "202cb962ac59075b964b07152d234b70".
Proof.
  exact (transaction_hash_is_md5_of_ids 5 1 1
           [sample_book 12; sample_book 3] [12; 3] empty_db eq_refl).
Defined.

(** C4. When the derived hash is the key of an existing transaction, the call
    returns that record and leaves the session untouched, whatever
    [customer_id], [currency_id] and list elements were supplied. *)
Theorem create_transaction_existing
    (now c cur : Z) (bks : list value) (t : Transaction.t) (s : db) :
  NoDup (map Transaction.transaction_hash (transactions s)) ->
  In t (transactions s) ->
  hash_books bks = Ok (Transaction.transaction_hash t) ->
  create_transaction now c cur bks s = (Ok t, s).
Proof.
  intros Hnd Hin Hh.
  apply create_transaction_found with (Transaction.transaction_hash t);
    [exact Hh |].
  now apply find_unique.
Qed.

(** A stored transaction keyed by the digest of ["1"] comes back unchanged
    even when the list holds a customer whose id is 1 and the call names
    another customer and currency. *)
Lemma create_transaction_existing_witness :
  let t := Transaction.mk "c4ca4238a0b923820dcc509a6f75849b" 7 0 3
             [sample_book 1] in
  let s := mkDb [t] [] [sample_book 1] in
  create_transaction 99 8 4 [VCustomer sample_customer] s = (Ok t, s).
Proof.
  intros t s. apply (create_transaction_existing 99 8 4 _ t s).
  - simpl. repeat constructor. intros [].
  - simpl. now left.
  - vm_compute. reflexivity.
Defined.

Lemma join_ids_pair (a b : Books.t) (x y : Z) :
  Books.id a = Some x -> Books.id b = Some y ->
  join_ids [VBooks a; VBooks b] = Ok (Py.str_int x ++ Py.str_int y)%string.
Proof.
  intros Ha Hb. simpl. rewrite Ha, Hb. simpl. now rewrite append_nil_r.
Qed.

Lemma hash_books_pair (a b : Books.t) (x y : Z) :
  Books.id a = Some x -> Books.id b = Some y ->
  hash_books [VBooks a; VBooks b] = Ok (pair_hash x y).
Proof.
  intros Ha Hb. unfold hash_books.
  rewrite (join_ids_pair a b x y Ha Hb). reflexivity.
Qed.

(** ** Strings that commute under concatenation *)

Lemma append_assoc (s t u : string) :
  ((s ++ t) ++ u = s ++ (t ++ u))%string.
Proof. induction s as [| c s IH]; simpl; [reflexivity | now rewrite IH]. Qed.

Lemma append_length (s t : string) :
  String.length (s ++ t) = (String.length s + String.length t)%nat.
Proof. induction s as [| c s IH]; simpl; [reflexivity | now rewrite IH]. Qed.

Lemma append_inv_head (s t1 t2 : string) :
  (s ++ t1 = s ++ t2)%string -> t1 = t2.
Proof.
  induction s as [| c s IH]; simpl; [auto |]. intros E. injection E as E. auto.
Qed.

(** Of two ways to cut one string, the shorter left part is a prefix of the
    longer. *)
Lemma append_split (s1 t1 s2 t2 : string) :
  (s1 ++ t1 = s2 ++ t2)%string ->
  (String.length s1 <= String.length s2)%nat ->
  exists k, s2 = (s1 ++ k)%string /\ t1 = (k ++ t2)%string.
Proof.
  revert s2. induction s1 as [| c s1 IH]; intros s2 E Hlen.
  - exists s2. now split.
  - destruct s2 as [| d s2]; [simpl in Hlen; lia |].
    simpl in E. injection E as -> E. simpl in Hlen.
    destruct (IH s2 E) as (k & -> & ->); [lia |]. exists k. now split.
Qed.

Lemma repeat_string_add (w : string) (i j : nat) :
  repeat_string w (i + j) = (repeat_string w i ++ repeat_string w j)%string.
Proof.
  induction i as [| i IH]; simpl; [reflexivity |].
  now rewrite IH, append_assoc.
Qed.

Lemma commute_powers_aux (n : nat) (u v : string) :
  (String.length u + String.length v <= n)%nat ->
  (u ++ v = v ++ u)%string ->
  exists w i j, u = repeat_string w i /\ v = repeat_string w j.
Proof.
  revert u v. induction n as [| n IH]; intros u v Hn E.
  - destruct u; [| simpl in Hn; lia]. destruct v; [| simpl in Hn; lia].
    now exists EmptyString, O, O.
  - destruct u as [| c u'] eqn:Eu.
    { exists v, O, 1%nat. simpl. now rewrite append_nil_r. }
    destruct v as [| d v'] eqn:Ev.
    { exists u, 1%nat, O. simpl. rewrite append_nil_r. now subst u. }
    rewrite <- Eu, <- Ev in *.
    assert (Hu : (1 <= String.length u)%nat) by (subst u; simpl; lia).
    assert (Hv : (1 <= String.length v)%nat) by (subst v; simpl; lia).
    clear Eu Ev c u' d v'.
    destruct (Nat.le_ge_cases (String.length u) (String.length v)) as [Hle | Hle].
    + destruct (append_split u v v u E Hle) as (k & Ek1 & Ek2).
      assert (Ec : (u ++ k = k ++ u)%string) by congruence.
      assert (Hk : (String.length u + String.length k <= n)%nat).
      { rewrite Ek1, append_length in Hn. lia. }
      destruct (IH u k Hk Ec) as (w & i & j & Hi & Hj).
      exists w, i, (i + j)%nat. split; [exact Hi |].
      now rewrite Ek1, repeat_string_add, <- Hi, <- Hj.
    + destruct (append_split v u u v (eq_sym E) Hle) as (k & Ek1 & Ek2).
      assert (Ec : (v ++ k = k ++ v)%string) by congruence.
      assert (Hk : (String.length v + String.length k <= n)%nat).
      { rewrite Ek1, append_length in Hn. lia. }
      destruct (IH v k Hk Ec) as (w & i & j & Hi & Hj).
      exists w, (i + j)%nat, i. split; [| exact Hi].
      now rewrite Ek1, repeat_string_add, <- Hi, <- Hj.
Qed.

(** Two strings commute under concatenation exactly when both are
    repetitions of one string. *)
Lemma commute_iff_powers (u v : string) :
  (u ++ v = v ++ u)%string <->
  exists w i j, u = repeat_string w i /\ v = repeat_string w j.
Proof.
  split.
  - now apply (commute_powers_aux (String.length u + String.length v)).
  - intros (w & i & j & -> & ->).
    now rewrite <- !repeat_string_add, Nat.add_comm.
Qed.

Lemma in_small_ids (z : Z) : 0 <= z < 50 -> In z small_ids.
Proof.
  intros Hz. unfold small_ids. apply in_map_iff.
  exists (Z.to_nat z). split; [lia | apply in_seq; lia].
Qed.

Lemma orders_checked_spec (ids : list Z) (x y : Z) :
  orders_checked ids = true ->
  In x ids -> In y ids -> x < y ->
  (Py.str_int x ++ Py.str_int y)%string <> (Py.str_int y ++ Py.str_int x)%string ->
  pair_hash x y <> pair_hash y x.
Proof.
  intros Hc Hx Hy Hlt Hne. unfold orders_checked in Hc.
  rewrite forallb_forall in Hc. specialize (Hc x Hx).
  rewrite forallb_forall in Hc. specialize (Hc y Hy). cbv beta in Hc.
  apply Z.ltb_lt in Hlt. rewrite Hlt in Hc. unfold order_checked in Hc.
  apply String.eqb_neq in Hne. rewrite Hne in Hc. cbn [orb] in Hc.
  unfold order_matters in Hc. apply negb_true_iff, String.eqb_neq in Hc.
  exact Hc.
Qed.

Lemma small_ids_orders_checked : orders_checked small_ids = true.
Proof. vm_cast_no_check (eq_refl true). Qed.

Lemma small_ids_order_matters (x y : Z) :
  0 <= x < 50 -> 0 <= y < 50 ->
  (Py.str_int x ++ Py.str_int y)%string <> (Py.str_int y ++ Py.str_int x)%string ->
  pair_hash x y <> pair_hash y x.
Proof.
  intros Hx Hy Hne.
  destruct (Z.lt_total x y) as [Hlt | [Heq | Hlt]].
  - exact (orders_checked_spec small_ids x y small_ids_orders_checked
             (in_small_ids x Hx) (in_small_ids y Hy) Hlt Hne).
  - subst y. now destruct Hne.
  - intros E. symmetry in E. revert E.
    apply (orders_checked_spec small_ids y x small_ids_orders_checked
             (in_small_ids y Hy) (in_small_ids x Hx) Hlt).
    intros E. now destruct Hne.
Qed.

(** C5 (as amended). For [S1 = [A, B]] and [S2 = [B, A]] with numeric ids
    the two hashes are the digests of [str(a) + str(b)] and of
    [str(b) + str(a)]; nothing is sorted.  The two strings are equal exactly
    when [str(a)] and [str(b)] are repetitions of one string, and then the
    hashes are equal.  Otherwise the strings that are hashed differ, and for
    ids from 0 to 49 so do the hashes. *)
Theorem hash_order_sensitive (a b : Books.t) (x y : Z) :
  Books.id a = Some x -> Books.id b = Some y ->
  hash_books [VBooks a; VBooks b]
  = Ok (MD5.hexdigest (Py.encode (Py.str_int x ++ Py.str_int y)))
  /\ hash_books [VBooks b; VBooks a]
     = Ok (MD5.hexdigest (Py.encode (Py.str_int y ++ Py.str_int x)))
  /\ ((Py.str_int x ++ Py.str_int y = Py.str_int y ++ Py.str_int x)%string <->
      exists w i j, Py.str_int x = repeat_string w i
                    /\ Py.str_int y = repeat_string w j)
  /\ ((Py.str_int x ++ Py.str_int y = Py.str_int y ++ Py.str_int x)%string ->
      hash_books [VBooks a; VBooks b] = hash_books [VBooks b; VBooks a])
  /\ ((Py.str_int x ++ Py.str_int y)%string
      <> (Py.str_int y ++ Py.str_int x)%string ->
      join_ids [VBooks a; VBooks b] <> join_ids [VBooks b; VBooks a]
      /\ (0 <= x < 50 -> 0 <= y < 50 ->
          hash_books [VBooks a; VBooks b] <> hash_books [VBooks b; VBooks a])).
Proof.
  intros Ha Hb.
  rewrite (hash_books_pair a b x y Ha Hb), (hash_books_pair b a y x Hb Ha).
  rewrite (join_ids_pair a b x y Ha Hb), (join_ids_pair b a y x Hb Ha).
  unfold pair_hash.
  split; [reflexivity |]. split; [reflexivity |].
  split; [apply commute_iff_powers |]. split.
  - intros E. now rewrite E.
  - intros Hne. split.
    + intros E. apply Ok_inj in E. contradiction.
    + intros Hx Hy E. apply Ok_inj in E. revert E.
      now apply (small_ids_order_matters x y).
Qed.

(** The books with ids 9 and 10, whose renderings differ in width. *)
Lemma hash_order_sensitive_witness :
  hash_books [VBooks (sample_book 9); VBooks (sample_book 10)]
  <> hash_books [VBooks (sample_book 10); VBooks (sample_book 9)].
Proof.
  destruct (hash_order_sensitive (sample_book 9) (sample_book 10) 9 10
              eq_refl eq_refl) as (_ & _ & _ & _ & H).
  apply H; [discriminate | lia | lia].
Defined.

(** C5 (as stated) fails: the distinct books with ids 1 and 11 concatenate to
    the same string in both orders, so the two hashes are equal. *)
Lemma hash_order_insensitive_1_11 :
  sample_book 1 <> sample_book 11
  /\ hash_books [VBooks (sample_book 1); VBooks (sample_book 11)]
     = hash_books [VBooks (sample_book 11); VBooks (sample_book 1)].
Proof.
  split; [discriminate | vm_compute; reflexivity].
Qed.

(** C10. The hash is not injective on id sequences: the ids [1, 23] and
    [12, 3] are different multisets but both concatenate to ["123"], so the
    two lists derive the same hash.  After a call on the first list the
    session stores a transaction under that hash, and a call on the second
    list (with any customer and currency) returns that stored transaction and
    writes nothing; when the hash was new, it is the transaction made for the
    first call, with its customer, currency and date. *)
Theorem hash_collision_returns_first
    (now1 now2 c1 cur1 c2 cur2 : Z) (a1 a2 b1 b2 : Books.t) (s : db) :
  Books.id a1 = Some 1 -> Books.id a2 = Some 23 ->
  Books.id b1 = Some 12 -> Books.id b2 = Some 3 ->
  ~ Permutation [Books.id a1; Books.id a2] [Books.id b1; Books.id b2]
  /\ hash_books [VBooks a1; VBooks a2] = hash_books [VBooks b1; VBooks b2]
  /\ exists t s1,
       create_transaction now1 c1 cur1 [VBooks a1; VBooks a2] s = (Ok t, s1)
       /\ In t (transactions s1)
       /\ Transaction.transaction_hash t = "202cb962ac59075b964b07152d234b70"
       /\ hash_books [VBooks b1; VBooks b2]
          = Ok (Transaction.transaction_hash t)
       /\ (find (has_hash "202cb962ac59075b964b07152d234b70") (transactions s)
           = None ->
           Transaction.customer_id t = c1 /\ Transaction.currency_id t = cur1
           /\ Transaction.date t = now1
           /\ transactions s1 = transactions s ++ [t])
       /\ create_transaction now2 c2 cur2 [VBooks b1; VBooks b2] s1 = (Ok t, s1).
Proof.
  intros Ha1 Ha2 Hb1 Hb2.
  assert (HA : hash_books [VBooks a1; VBooks a2]
               = Ok "202cb962ac59075b964b07152d234b70").
  { rewrite (hash_books_pair _ _ _ _ Ha1 Ha2). vm_compute. reflexivity. }
  assert (HB : hash_books [VBooks b1; VBooks b2]
               = Ok "202cb962ac59075b964b07152d234b70").
  { rewrite (hash_books_pair _ _ _ _ Hb1 Hb2). vm_compute. reflexivity. }
  split; [| split; [now rewrite HA, HB |]].
  - rewrite Ha1, Ha2, Hb1, Hb2. intros H.
    apply (Permutation_in (Some 1)) in H; [| now left].
    destruct H as [H | [H | []]]; discriminate.
  - destruct (find (has_hash "202cb962ac59075b964b07152d234b70")
                (transactions s)) as [t |] eqn:Hf.
    + destruct (find_has_hash_hash _ _ _ Hf) as [Et Hin].
      exists t, s.
      split; [now apply create_transaction_found
                with "202cb962ac59075b964b07152d234b70" |].
      split; [exact Hin |]. split; [exact Et |].
      split; [now rewrite Et |]. split; [discriminate |].
      now apply create_transaction_found
        with "202cb962ac59075b964b07152d234b70".
    + eexists _, _.
      split; [apply create_transaction_fresh
                with "202cb962ac59075b964b07152d234b70";
              [exact HA | exact Hf
              | exact (Transaction_init_genuine now1 _ c1 cur1 [a1; a2])] |].
      cbn [transactions Transaction.transaction_hash Transaction.customer_id
           Transaction.currency_id Transaction.date].
      split; [apply in_or_app; right; now left |].
      split; [reflexivity |]. split; [exact HB |].
      split; [intros _; repeat split |].
      apply create_transaction_found
        with "202cb962ac59075b964b07152d234b70"; [exact HB |].
      cbn [transactions]. now apply find_app_fresh.
Qed.

(** On an empty session, with different customers and currencies. *)
Lemma hash_collision_returns_first_witness :
  exists t s1,
    create_transaction 5 1 1 [VBooks (sample_book 1); VBooks (sample_book 23)]
      empty_db = (Ok t, s1)
    /\ In t (transactions s1)
    /\ Transaction.transaction_hash t = "202cb962ac59075b964b07152d234b70"
    /\ create_transaction 6 2 2 [VBooks (sample_book 12); VBooks (sample_book 3)]
         s1 = (Ok t, s1).
Proof.
  destruct (hash_collision_returns_first 5 6 1 1 2 2
              (sample_book 1) (sample_book 23)
              (sample_book 12) (sample_book 3) empty_db
              eq_refl eq_refl eq_refl eq_refl)
    as (_ & _ & t & s1 & H1 & Hin & Ht & _ & _ & H2).
  exists t, s1. repeat split; assumption.
Defined.

(** ** The constructor of [Transaction] and the empty list *)

(** If some element of the list given to the constructor is not a [Books]
    object, the [assert] fails and the constructor returns no transaction. *)
Lemma Transaction_init_rejects_stranger
    (now : Z) (h : string) (c cur : Z) (bks : list value) :
  (exists v, In v bks /\ isinstance_Books v = false) ->
  Transaction_init now h c cur bks = Raise AssertionError.
Proof.
  intros H. unfold Transaction_init.
  now rewrite (append_books_stranger bks [] H).
Qed.

Lemma append_loop_genuine (bs acc : list Books.t) (attached : bool) :
  append_loop acc attached (map VBooks bs)
  = (Ok tt, (acc ++ bs, attached || existsb persistent bs)).
Proof.
  revert acc attached. induction bs as [| b bs IH]; intros acc attached.
  - cbn. now rewrite app_nil_r, orb_false_r.
  - cbn [map append_loop existsb]. rewrite IH, <- app_assoc, orb_assoc.
    reflexivity.
Qed.

Lemma append_loop_stranger (bs acc : list Books.t) (attached : bool)
    (v : value) (rest : list value) :
  isinstance_Books v = false ->
  append_loop acc attached (map VBooks bs ++ v :: rest)
  = (Raise AssertionError, (acc ++ bs, attached || existsb persistent bs)).
Proof.
  intros Hv. revert acc attached.
  induction bs as [| b bs IH]; intros acc attached.
  - cbn [map app append_loop existsb]. rewrite app_nil_r, orb_false_r.
    destruct v; try reflexivity. discriminate.
  - cbn [map app append_loop existsb]. rewrite IH, <- app_assoc, orb_assoc.
    reflexivity.
Qed.

(** The value of the constructor in a session is the value of
    [Transaction_init]. *)
Lemma Transaction_init_session_value now h c cur (bks : list value) s :
  fst (Transaction_init_session now h c cur bks s)
  = Transaction_init now h c cur bks.
Proof.
  unfold Transaction_init_session, Transaction_init.
  assert (H : forall acc attached,
             match fst (append_loop acc attached bks) with
             | Ok _ => Ok (fst (snd (append_loop acc attached bks)))
             | Raise e => Raise e
             end = append_books acc bks).
  { induction bks as [| x bks IH]; intros acc attached; [reflexivity |].
    destruct x; try reflexivity. cbn [append_loop append_books]. apply IH. }
  specialize (H [] false).
  destruct (append_loop [] false bks) as [r [acc attached]].
  cbn [fst snd] in H. rewrite <- H.
  destruct r, attached; reflexivity.
Qed.

(** C7. The failing input of the claim: when the element that is not a
    [Books] object comes after books of which one is stored, the constructor
    raises the assertion error, yet the transaction it had begun to build,
    holding the books appended so far, is left pending in the session. *)
Theorem Transaction_init_leaves_pending
    (now : Z) (h : string) (c cur : Z) (bs : list Books.t)
    (v : value) (rest : list value) (s : session) :
  isinstance_Books v = false ->
  existsb persistent bs = true ->
  Transaction_init_session now h c cur (map VBooks bs ++ v :: rest) s
  = (Raise AssertionError,
     mkSession (stored s) (pending s ++ [Transaction.mk h c now cur bs])).
Proof.
  intros Hv Hp. unfold Transaction_init_session.
  rewrite (append_loop_stranger bs [] false v rest Hv).
  cbn [app orb]. now rewrite Hp.
Qed.

(** A stored book, then a string. *)
Lemma Transaction_init_leaves_pending_witness :
  Transaction_init_session 5 "abc" 1 1 [VBooks (sample_book 1); VStr "book"]
    (mkSession (mkDb [] [] [sample_book 1]) [])
  = (Raise AssertionError,
     mkSession (mkDb [] [] [sample_book 1])
               [Transaction.mk "abc" 1 5 1 [sample_book 1]]).
Proof.
  exact (Transaction_init_leaves_pending 5 "abc" 1 1 [sample_book 1]
           (VStr "book") [] (mkSession (mkDb [] [] [sample_book 1]) [])
           eq_refl eq_refl).
Defined.



(** C8 (as amended). An empty list is accepted: its hash is the digest of the
    empty string, and when no transaction carries that hash a transaction
    with an empty book collection is persisted and returned. *)
Theorem create_transaction_empty (now c cur : Z) (s : db) :
  find (has_hash "d41d8cd98f00b204e9800998ecf8427e") (transactions s) = None ->
  create_transaction now c cur [] s
  = (Ok (Transaction.mk "d41d8cd98f00b204e9800998ecf8427e" c now cur []),
     mkDb (transactions s
             ++ [Transaction.mk "d41d8cd98f00b204e9800998ecf8427e" c now cur []])
          (categories s) (books s)).
Proof.
  intros Hf.
  apply create_transaction_fresh with "d41d8cd98f00b204e9800998ecf8427e";
    [vm_compute; reflexivity | exact Hf | reflexivity].
Qed.

(** On an empty session. *)
Lemma create_transaction_empty_witness :
  create_transaction 5 1 1 [] empty_db
  = (Ok (Transaction.mk "d41d8cd98f00b204e9800998ecf8427e" 1 5 1 []),
     mkDb [Transaction.mk "d41d8cd98f00b204e9800998ecf8427e" 1 5 1 []] [] []).
Proof.
  exact (create_transaction_empty 5 1 1 empty_db eq_refl).
Defined.

(** C8 (as stated) fails: on an empty session, [create_transaction] with an
    empty list does not raise; it persists a transaction without books. *)
Lemma create_transaction_empty_persists :
  exists t,
    create_transaction 5 1 1 [] empty_db = (Ok t, mkDb [t] [] [])
    /\ Transaction.books t = []
    /\ forall e, fst (create_transaction 5 1 1 [] empty_db) <> Raise e.
Proof.
  exists (Transaction.mk "d41d8cd98f00b204e9800998ecf8427e" 1 5 1 []).
  assert (E : create_transaction 5 1 1 [] empty_db
              = (Ok (Transaction.mk "d41d8cd98f00b204e9800998ecf8427e" 1 5 1 []),
                 mkDb [Transaction.mk "d41d8cd98f00b204e9800998ecf8427e" 1 5 1 []]
                      [] []))
    by (vm_compute; reflexivity).
  split; [exact E | split; [reflexivity |]].
  intros e. rewrite E. discriminate.
Qed.

(** ** [add_book] *)

(** C9. When no category row has the given name, [add_book] raises the
    not-found error and the session is left as it was: no book is written. *)
Theorem add_book_unknown_category
    (ISBN category : string) (cost : float) (cur : Z) (s : db) :
  (forall c, In c (categories s) -> Category.name c <> category) ->
  add_book ISBN category cost cur s = (Raise NotFound, s).
Proof.
  intros Hnone. unfold add_book, bind, category_first_or_404.
  destruct (find _ (categories s)) as [c |] eqn:Hf; [| reflexivity].
  apply find_some in Hf as [Hin Heq]. apply String.eqb_eq in Heq.
  now destruct (Hnone c Hin).
Qed.

(** Two categories are stored and a third one is asked for. *)
Lemma add_book_unknown_category_witness :
  let s := mkDb [] [Category.mk (Some 1) "horrors"; Category.mk (Some 2) "business"]
             [sample_book 1] in
  add_book "01-0101-0119" "comix" 3000.5%float 1 s = (Raise NotFound, s).
Proof.
  intros s. apply add_book_unknown_category.
  intros c [<- | [<- | []]]; discriminate.
Defined.

Example add_book_known_category :
  add_book "01-0101-0110" "business" 200.5%float 1
    (mkDb [] [Category.mk (Some 1) "horrors"; Category.mk (Some 2) "business"]
          [sample_book 1])
  = (Ok tt,
     mkDb [] [Category.mk (Some 1) "horrors"; Category.mk (Some 2) "business"]
          [sample_book 1;
           Books.mk (Some 2) "01-0101-0110" (Some 2) 200.5%float None 1]).
Proof. reflexivity. Qed.

(** ** The [Customer] validators *)

Lemma isdigit_false (s : string) :
  Py.isdigit s = false <->
  s = EmptyString \/ exists c, In c (list_ascii_of_string s) /\ Py.isdigit_char c = false.
Proof.
  destruct s as [| c s].
  - split; [now left | reflexivity].
  - unfold Py.isdigit. rewrite forallb_string_spec. split.
    + now right.
    + intros [H | H]; [discriminate | exact H].
Qed.

(** The shape of the numbers the first [assert] lets through. *)
Lemma startswith_8_or_plus7 (number : string) :
  Py.startswith "8" number || Py.startswith "+7" number = true ->
  Py.startswith "+" number = false
  \/ (Py.startswith "+" number = true /\ Py.tail number <> EmptyString).
Proof.
  destruct number as [| c rest]; cbn [Py.startswith Py.tail orb];
    [discriminate |].
  rewrite !andb_true_r.
  destruct (Ascii.eqb_spec "8" c) as [<- | H8]; cbn [orb].
  - intros _. now left.
  - destruct (Ascii.eqb_spec "+" c) as [<- | Hp]; cbn [andb]; [| discriminate].
    destruct rest as [| d rest]; [discriminate |].
    intros _. right. split; [reflexivity | discriminate].
Qed.

Lemma validate_email_fails_iff (address : string) :
  Customer.validate_email address = Raise AssertionError
  <-> Py.contains "@" address = false.
Proof.
  unfold Customer.validate_email.
  destruct (Py.contains "@" address); split; (reflexivity || discriminate).
Qed.

Lemma validate_phone_number_fails_iff (number : string) :
  Customer.validate_phone_number number = Raise AssertionError <->
  (Py.startswith "8" number = false /\ Py.startswith "+7" number = false)
  \/ (Py.startswith "+" number = true
      /\ exists c, In c (list_ascii_of_string (Py.tail number))
                   /\ Py.isdigit_char c = false).
Proof.
  unfold Customer.validate_phone_number.
  pose proof (startswith_8_or_plus7 number) as Hshape.
  destruct (Py.startswith "8" number || Py.startswith "+7" number) eqn:H87.
  2:{ apply orb_false_iff in H87. split; auto. }
  apply orb_true_iff in H87.
  destruct (Py.startswith "+" number) eqn:Hplus.
  - destruct (Hshape eq_refl) as [? | [_ Hne]]; [discriminate |].
    destruct (Py.isdigit (Py.tail number)) eqn:Hd.
    + split; [discriminate |].
      intros [[H8 H7] | [_ Hc]]; [destruct H87; congruence |].
      assert (Py.isdigit (Py.tail number) = false)
        by (apply isdigit_false; now right).
      congruence.
    + split; [| reflexivity]. intros _. right. split; [reflexivity |].
      apply isdigit_false in Hd as [? | ?]; [contradiction | assumption].
  - split; [discriminate |].
    intros [[H8 H7] | [? _]]; [destruct H87; congruence | discriminate].
Qed.

Lemma validate_total :
  (forall address,
      Customer.validate_email address = Raise AssertionError
      \/ Customer.validate_email address = Ok address)
  /\ (forall number,
         Customer.validate_phone_number number = Raise AssertionError
         \/ Customer.validate_phone_number number = Ok number).
Proof.
  split; intros x.
  - unfold Customer.validate_email. destruct (Py.contains "@" x); auto.
  - unfold Customer.validate_phone_number.
    destruct (_ || _); [| auto]. destruct (Py.startswith "+" x); [| auto].
    destruct (Py.isdigit _); auto.
Qed.

(** On a number without the three superscript digits the documented wording
    of the phone check and the check itself agree. *)
Lemma documented_phone_failure_plain (number : string) :
  (forall c, In c (list_ascii_of_string (Py.tail number)) ->
             Py.isdigit_char c = Py.isdecimal_char c) ->
  Customer.validate_phone_number number = Raise AssertionError
  <-> documented_phone_failure number.
Proof.
  intros Hplain. rewrite validate_phone_number_fails_iff.
  unfold documented_phone_failure.
  split; (intros [H | (Hp & c & Hin & Hc)]; [now left | right]);
    (split; [exact Hp |]); exists c; (split; [exact Hin |]);
    [rewrite <- Hplain | rewrite Hplain]; assumption.
Qed.

(** What the constructor does: it either raises the assertion error or
    returns the object with the three fields as given, and it raises exactly
    when the email lacks ['@'], or the phone number starts with neither ['8']
    nor ['+7'], or it starts with ['+'] and some remaining character is not a
    digit in the sense of [str.isdigit]. *)
Lemma Customer_init_fails_iff (name email phone : string) :
  (Customer.init name email phone = Raise AssertionError
   \/ Customer.init name email phone = Ok (Customer.mk None name email phone))
  /\ (Customer.init name email phone = Raise AssertionError <->
      Py.contains "@" email = false
      \/ (Py.startswith "8" phone = false /\ Py.startswith "+7" phone = false)
      \/ (Py.startswith "+" phone = true
          /\ exists c, In c (list_ascii_of_string (Py.tail phone))
                       /\ Py.isdigit_char c = false)).
Proof.
  rewrite <- validate_email_fails_iff, <- validate_phone_number_fails_iff.
  destruct validate_total as [He Hp]. unfold Customer.init.
  destruct (He email) as [-> | ->]; [intuition auto |].
  destruct (Hp phone) as [-> | ->]; intuition (auto; discriminate).
Qed.

(** C6. The failing input of the claim: in ["+7²"] the character after
    ["+7"] is the superscript two, which is not a decimal digit but which
    [str.isdigit] accepts, so the phone check that the claim describes fails
    while the constructor returns a customer. *)
Lemma superscript_phone_accepted :
  documented_phone_failure superscript_phone
  /\ ~ documented_email_failure "a@b.com"
  /\ Customer.init "x" "a@b.com" superscript_phone
     = Ok (Customer.mk None "x" "a@b.com" superscript_phone).
Proof.
  split; [| split].
  - right. split; [reflexivity |]. exists "178"%char.
    split; [right; now left | reflexivity].
  - discriminate.
  - reflexivity.
Qed.

Example Customer_documented_cases :
  Customer.init "x" "no-at-sign" "89001234567" = Raise AssertionError
  /\ Customer.init "x" "a@b.com" "+79001234567"
     = Ok (Customer.mk None "x" "a@b.com" "+79001234567")
  /\ Customer.init "x" "a@b.com" "9001234567" = Raise AssertionError.
Proof. repeat split. Qed.

(** ** Further properties of the factory *)

(** X5. An element without an [id] attribute ([None], an integer, a string,
    a transaction) makes the call raise the attribute error before anything
    is looked up or written, wherever it stands in the list. *)
Theorem create_transaction_without_id
    (now c cur : Z) (bks : list value) (s : db) :
  (exists v, In v bks /\ getattr_id v = Raise AttributeError) ->
  create_transaction now c cur bks s = (Raise AttributeError, s).
Proof.
  intros H. apply create_transaction_no_id. unfold hash_books.
  assert (E : join_ids bks = Raise AttributeError).
  { induction bks as [| x bks IH]; destruct H as (v & Hin & Hv);
      [destruct Hin |].
    cbn [join_ids]. destruct (getattr_id x) as [i | e] eqn:Hx.
    - destruct Hin as [-> | Hin]; [congruence |].
      rewrite IH; [reflexivity | now exists v].
    - destruct x; simpl in Hx; congruence. }
  now rewrite E.
Qed.

Lemma create_transaction_without_id_witness :
  create_transaction 5 1 1 [VBooks (sample_book 1); VNone] empty_db
  = (Raise AttributeError, empty_db).
Proof.
  apply create_transaction_without_id.
  exists VNone. split; [right; now left | reflexivity].
Defined.

(** On the empty session. *)
Lemma create_transaction_keeps_key_unique_witness :
  NoDup (map Transaction.transaction_hash
           (transactions
              (snd (create_transaction 5 1 1 [VBooks (sample_book 1)]
                      empty_db)))).
Proof.
  apply create_transaction_keeps_key_unique. constructor.
Defined.

(** ** The constructor, completely *)

Lemma append_books_ok (bks : list value) (acc bs : list Books.t) :
  append_books acc bks = Ok bs <->
  exists tl, bks = map VBooks tl /\ bs = acc ++ tl.
Proof.
  revert acc. induction bks as [| x bks IH]; intros acc.
  - simpl. split.
    + intros [= <-]. exists []. now rewrite app_nil_r.
    + intros ([| ? ?] & E & ->); [now rewrite app_nil_r | discriminate].
  - destruct x; simpl;
      try (split; [discriminate | intros ([| ? ?] & E & _); discriminate]).
    rewrite IH. split.
    + intros (tl & -> & ->). exists (b :: tl). split; [reflexivity |].
      now rewrite <- app_assoc.
    + intros ([| b' tl] & E & ->); [discriminate |].
      injection E as <- ->. exists tl. split; [reflexivity |].
      now rewrite <- app_assoc.
Qed.

(** X7. The constructor returns a transaction exactly when every element of
    the list is a book; the transaction then holds the arguments as given,
    the clock reading, and the books in the order of the list. *)
Theorem Transaction_init_ok_iff
    (now : Z) (h : string) (c cur : Z) (bks : list value) (t : Transaction.t) :
  Transaction_init now h c cur bks = Ok t <->
  bks = map VBooks (Transaction.books t)
  /\ t = Transaction.mk h c now cur (Transaction.books t).
Proof.
  unfold Transaction_init. split.
  - destruct (append_books [] bks) as [bs |] eqn:E; [| discriminate].
    intros [= <-]. apply append_books_ok in E as (tl & -> & ->). now split.
  - intros [Hb Ht].
    assert (E : append_books [] bks = Ok (Transaction.books t))
      by (apply append_books_ok; now exists (Transaction.books t)).
    rewrite E, Ht. reflexivity.
Qed.

(** ** The shape of the hash *)

Lemma le_bytes_length (n : nat) (x : Z) : List.length (MD5.le_bytes n x) = n.
Proof. unfold MD5.le_bytes. now rewrite length_map, length_seq. Qed.

Lemma le_bytes_range (n : nat) (x b : Z) :
  In b (MD5.le_bytes n x) -> 0 <= b < 256.
Proof.
  unfold MD5.le_bytes. intros H. apply in_map_iff in H as (i & <- & _).
  change 0xff with (Z.ones 8). rewrite Z.land_ones by lia.
  apply Z.mod_pos_bound. lia.
Qed.

Lemma digest_length (msg : list Z) : List.length (MD5.digest msg) = 16%nat.
Proof.
  unfold MD5.digest. cbv zeta. rewrite !length_app, !le_bytes_length.
  reflexivity.
Qed.

Lemma digest_range (msg : list Z) (b : Z) :
  In b (MD5.digest msg) -> 0 <= b < 256.
Proof.
  unfold MD5.digest. cbv zeta. rewrite !in_app_iff.
  intros [H | [H | [H | H]]]; now apply le_bytes_range in H.
Qed.

Lemma hex_digit_lower (x : Z) :
  0 <= x < 16 -> is_lower_hex (MD5.hex_digit x) = true.
Proof.
  intros Hx.
  assert (H : In x (map Z.of_nat (seq 0 16))).
  { apply in_map_iff. exists (Z.to_nat x). split; [lia | apply in_seq; lia]. }
  cbn [map seq] in H.
  repeat (destruct H as [<- | H]; [reflexivity |]). destruct H.
Qed.

Lemma hex_shape (bs : list Z) :
  (forall b, In b bs -> 0 <= b < 256) ->
  String.length (MD5.hex bs) = (2 * List.length bs)%nat
  /\ Py.forallb_string is_lower_hex (MD5.hex bs) = true.
Proof.
  induction bs as [| b bs IH]; intros Hr; [now split |].
  destruct IH as [IHl IHc]; [intros; apply Hr; now right |].
  assert (Hb : 0 <= b < 256) by (apply Hr; now left).
  cbn [MD5.hex String.length Py.forallb_string List.length]. split.
  - rewrite IHl. lia.
  - rewrite IHc, !hex_digit_lower; [reflexivity | |].
    + change 0xf with (Z.ones 4). rewrite Z.land_ones by lia.
      apply Z.mod_pos_bound. lia.
    + rewrite Z.shiftr_div_pow2 by lia. split.
      * apply Z.div_pos; lia.
      * apply Z.div_lt_upper_bound; lia.
Qed.

(** X8. Whatever the list, a derived hash is a string of 32 characters taken
    from [0-9a-f]. *)
Theorem hash_books_shape (bks : list value) (h : string) :
  hash_books bks = Ok h ->
  String.length h = 32%nat /\ Py.forallb_string is_lower_hex h = true.
Proof.
  unfold hash_books. destruct (join_ids bks) as [j |]; [| discriminate].
  intros H. apply Ok_inj in H. subst h. unfold MD5.hexdigest.
  destruct (hex_shape (MD5.digest (Py.encode j)) (digest_range _)) as [Hl Hc].
  rewrite Hl, digest_length. now split.
Qed.

Lemma hash_books_shape_witness :
  String.length "202cb962ac59075b964b07152d234b70" = 32%nat
  /\ Py.forallb_string is_lower_hex "202cb962ac59075b964b07152d234b70" = true.
Proof.
  apply (hash_books_shape [VBooks (sample_book 12); VBooks (sample_book 3)]).
  vm_compute. reflexivity.
Defined.

(** ** What the hash reads from the list *)

(** X9. The hash reads the [id] attributes and nothing else: two lists whose
    elements have, position by position, the same [id] derive the same hash,
    whatever the classes and the other fields of the elements. *)
Theorem hash_books_reads_ids_only (l1 l2 : list value) :
  Forall2 (fun v1 v2 => getattr_id v1 = getattr_id v2) l1 l2 ->
  hash_books l1 = hash_books l2.
Proof.
  intros H. unfold hash_books.
  assert (E : join_ids l1 = join_ids l2).
  { induction H as [| v1 v2 l1 l2 Hv _ IH]; [reflexivity |].
    cbn [join_ids]. now rewrite Hv, IH. }
  now rewrite E.
Qed.

Lemma hash_books_reads_ids_only_witness :
  hash_books [VBooks (sample_book 1); VCustomer sample_customer]
  = hash_books [VCategory (Category.mk (Some 1) "horrors");
                VBooks (Books.mk (Some 1) "978-0" None 500%float None 2)].
Proof.
  apply hash_books_reads_ids_only. repeat constructor.
Defined.

Lemma str_int_nonempty (n : Z) : Py.str_int n <> EmptyString.
Proof.
  intros E. pose proof (int_of_str_str_int n) as H. rewrite E in H.
  discriminate.
Qed.

Lemma join_fixed_width_inj (w : nat) (ids1 ids2 : list Z) :
  Forall (fun i => String.length (Py.str_int i) = w) ids1 ->
  Forall (fun i => String.length (Py.str_int i) = w) ids2 ->
  Py.join (map Py.str_int ids1) = Py.join (map Py.str_int ids2) ->
  ids1 = ids2.
Proof.
  intros H1. revert ids2.
  induction H1 as [| i ids1 Hi _ IH]; intros ids2 H2 E;
    destruct H2 as [| j ids2 Hj H2]; cbn [map Py.join fold_right] in E.
  - reflexivity.
  - exfalso. apply (str_int_nonempty j).
    destruct (Py.str_int j); [reflexivity | discriminate].
  - exfalso. apply (str_int_nonempty i).
    destruct (Py.str_int i); [reflexivity | discriminate].
  - apply append_inj_length in E as [Ei Et]; [| congruence].
    apply str_int_inj in Ei. subst j. f_equal. now apply IH.
Qed.

(** X10. Collisions of the hashed string need ids of different widths: among
    lists of books whose ids are all rendered with the same number of
    characters, two lists are joined to the same string only if they carry
    the same ids in the same order. *)
Theorem join_ids_fixed_width_injective
    (w : nat) (bs1 bs2 : list Books.t) (ids1 ids2 : list Z) :
  map Books.id bs1 = map Some ids1 ->
  map Books.id bs2 = map Some ids2 ->
  Forall (fun i => String.length (Py.str_int i) = w) (ids1 ++ ids2) ->
  join_ids (map VBooks bs1) = join_ids (map VBooks bs2) ->
  ids1 = ids2.
Proof.
  intros E1 E2 Hw H. apply Forall_app in Hw as [H1 H2].
  rewrite !join_ids_genuine in H. apply Ok_inj in H.
  rewrite (str_opt_numeric _ _ E1), (str_opt_numeric _ _ E2) in H.
  now apply (join_fixed_width_inj w).
Qed.

Lemma join_ids_fixed_width_injective_witness : [12; 34] = [12; 34].
Proof.
  apply (join_ids_fixed_width_injective 2
           [sample_book 12; sample_book 34]
           [Books.mk (Some 12) "978-0" None 500%float None 2; sample_book 34]);
    try reflexivity.
  repeat constructor.
Defined.

(** ** Further properties of the validators *)

Lemma contains_split (c : ascii) (s : string) :
  Py.contains c s = true <->
  exists s1 s2, s = (s1 ++ String c s2)%string.
Proof.
  induction s as [| x s IH]; cbn [Py.contains].
  - split; [discriminate | intros ([| ? ?] & s2 & E); discriminate].
  - rewrite orb_true_iff, IH. split.
    + intros [E | (s1 & s2 & ->)].
      * apply Ascii.eqb_eq in E. subst x. now exists EmptyString, s.
      * now exists (String x s1), s2.
    + intros ([| y s1] & s2 & E); injection E as -> ->.
      * left. apply Ascii.eqb_refl.
      * right. now exists s1, s2.
Qed.

(** X11. The email check is passed by exactly the strings that have an ['@']
    somewhere, with anything, or nothing, before and after it; the validator
    then hands the address back unchanged. *)
Theorem validate_email_ok_iff (address : string) :
  Customer.validate_email address = Ok address
  <-> exists s1 s2, address = (s1 ++ "@" ++ s2)%string.
Proof.
  rewrite <- (contains_split "@" address). unfold Customer.validate_email.
  destruct (Py.contains "@" address); split; (reflexivity || discriminate).
Qed.

Lemma validate_phone_number_8 (rest : string) :
  Customer.validate_phone_number (String "8" rest) = Ok (String "8" rest).
Proof. reflexivity. Qed.

Lemma validate_phone_number_plus7 (rest : string) :
  Customer.validate_phone_number (String "+" (String "7" rest))
  = if Py.forallb_string Py.isdigit_char rest
    then Ok (String "+" (String "7" rest)) else Raise AssertionError.
Proof.
  unfold Customer.validate_phone_number.
  cbn [Py.startswith Py.tail Py.isdigit Py.forallb_string].
  change (Ascii.eqb "8" "+") with false.
  change (Ascii.eqb "+" "+") with true.
  change (Ascii.eqb "7" "7") with true.
  change (Py.isdigit_char "7") with true.
  reflexivity.
Qed.

(** X12. The phone check is passed by exactly two kinds of numbers: an ['8']
    followed by anything at all (no digit check is made on it), and ['+7']
    followed by characters that are all digits for [str.isdigit], possibly by
    none; the validator then hands the number back unchanged. *)
Theorem validate_phone_number_ok_iff (number : string) :
  Customer.validate_phone_number number = Ok number <->
  (exists rest, number = String "8" rest)
  \/ (exists rest, number = String "+" (String "7" rest)
                   /\ Py.forallb_string Py.isdigit_char rest = true).
Proof.
  split.
  - destruct number as [| c r]; [discriminate |].
    destruct (Ascii.eqb_spec "8" c) as [<- | H8]; [left; now exists r |].
    destruct (Ascii.eqb_spec "+" c) as [<- | Hp].
    + destruct r as [| d r]; [discriminate |].
      destruct (Ascii.eqb_spec "7" d) as [<- | H7].
      * rewrite validate_phone_number_plus7.
        destruct (Py.forallb_string Py.isdigit_char r) eqn:Hd;
          [| discriminate].
        intros _. right. now exists r.
      * unfold Customer.validate_phone_number. cbn [Py.startswith].
        apply Ascii.eqb_neq in H7. rewrite H7.
        change (Ascii.eqb "8" "+") with false. discriminate.
    + unfold Customer.validate_phone_number. cbn [Py.startswith].
      apply Ascii.eqb_neq in H8, Hp. rewrite H8, Hp. discriminate.
  - intros [(rest & ->) | (rest & -> & Hd)].
    + apply validate_phone_number_8.
    + now rewrite validate_phone_number_plus7, Hd.
Qed.

(** ** [add_book], completely *)

Lemma add_book_not_found ISBN category cost cur s :
  find (fun c => String.eqb (Category.name c) category) (categories s) = None ->
  add_book ISBN category cost cur s = (Raise NotFound, s).
Proof.
  intros Hf. unfold add_book, bind, category_first_or_404. now rewrite Hf.
Qed.

Lemma add_book_duplicate ISBN category cost cur s c :
  find (fun c => String.eqb (Category.name c) category) (categories s) = Some c ->
  existsb (fun b => String.eqb (Books.ISBN b) ISBN) (books s) = true ->
  add_book ISBN category cost cur s = (Raise IntegrityError, s).
Proof.
  intros Hf Hd. unfold add_book, bind, category_first_or_404, ret.
  rewrite Hf. unfold add_commit_book. cbn [Books.init Books.ISBN].
  now rewrite Hd.
Qed.

Lemma add_book_inserted ISBN category cost cur s c :
  find (fun c => String.eqb (Category.name c) category) (categories s) = Some c ->
  existsb (fun b => String.eqb (Books.ISBN b) ISBN) (books s) = false ->
  add_book ISBN category cost cur s
  = (Ok tt,
     mkDb (transactions s) (categories s)
          (books s ++ [Books.mk (Some (next_id (books s))) ISBN (Category.id c)
                         cost None cur])).
Proof.
  intros Hf Hd. unfold add_book, bind, category_first_or_404, ret.
  rewrite Hf. unfold add_commit_book. cbn [Books.init Books.ISBN].
  now rewrite Hd.
Qed.

Lemma find_category_none category l :
  find (fun c => String.eqb (Category.name c) category) l = None
  <-> forall c, In c l -> Category.name c <> category.
Proof.
  split.
  - intros Hf c Hin. apply (find_none _ _ Hf) in Hin.
    now apply String.eqb_neq in Hin.
  - intros H. destruct (find _ l) as [c |] eqn:Hf; [| reflexivity].
    apply find_some in Hf as [Hin E]. apply String.eqb_eq in E.
    now destruct (H c Hin).
Qed.

(** X13. [add_book] raises the not-found error exactly when no category has
    the given name. *)
Theorem add_book_not_found_iff
    (ISBN category : string) (cost : float) (cur : Z) (s : db) :
  fst (add_book ISBN category cost cur s) = Raise NotFound
  <-> forall c, In c (categories s) -> Category.name c <> category.
Proof.
  rewrite <- find_category_none. unfold add_book, bind, category_first_or_404.
  destruct (find _ (categories s)) as [c |]; [| now split].
  unfold ret, raise, add_commit_book.
  destruct (existsb _ (books s)); split; discriminate.
Qed.

(** X15. An ISBN can be added once: after a call that returned, a second call
    with the same ISBN and any existing category raises the integrity error
    and changes nothing, whatever its cost and currency. *)
Theorem add_book_same_ISBN_again
    (ISBN category category' : string) (cost cost' : float) (cur cur' : Z)
    (s s1 : db) :
  add_book ISBN category cost cur s = (Ok tt, s1) ->
  (exists c, In c (categories s) /\ Category.name c = category') ->
  add_book ISBN category' cost' cur' s1 = (Raise IntegrityError, s1).
Proof.
  intros H1 (c' & Hin' & E').
  destruct (find (fun c => String.eqb (Category.name c) category)
              (categories s)) as [c |] eqn:Hf.
  2:{ rewrite (add_book_not_found _ _ _ _ _ Hf) in H1. discriminate. }
  destruct (existsb (fun b => String.eqb (Books.ISBN b) ISBN) (books s))
    eqn:Hd.
  { rewrite (add_book_duplicate _ _ _ _ _ _ Hf Hd) in H1. discriminate. }
  rewrite (add_book_inserted _ _ _ _ _ _ Hf Hd) in H1.
  injection H1 as <-.
  destruct (find (fun c => String.eqb (Category.name c) category')
              (categories s)) as [c2 |] eqn:Hf'.
  2:{ apply find_category_none with (c := c') in Hf'; [contradiction | exact Hin']. }
  apply add_book_duplicate with c2; [exact Hf' |].
  cbn [books]. rewrite existsb_app. cbn [existsb Books.ISBN].
  rewrite String.eqb_refl. now rewrite orb_true_r.
Qed.

Lemma add_book_same_ISBN_again_witness :
  let s := mkDb [] [Category.mk (Some 1) "horrors"; Category.mk (Some 2) "comix"]
             [] in
  let s1 := snd (add_book "01-0101-0111" "horrors" 500%float 1 s) in
  add_book "01-0101-0111" "comix" 12.5%float 2 s1 = (Raise IntegrityError, s1).
Proof.
  intros s s1.
  apply (add_book_same_ISBN_again "01-0101-0111" "horrors" "comix"
           500%float 12.5%float 1 2 s s1).
  - reflexivity.
  - exists (Category.mk (Some 2) "comix"). split; [right; now left | reflexivity].
Defined.

(** ** The [category] of a stored book *)

Lemma find_category_by_id (l : list Category.t) (c : Category.t) (k : Z) :
  NoDup (map Category.id l) -> In c l -> Category.id c = Some k ->
  find (fun c => match Category.id c with
                 | Some i => i =? k
                 | None => false
                 end) l = Some c.
Proof.
  intros Hnd Hin Hk. induction l as [| x l IH]; [destruct Hin |].
  cbn [map] in Hnd. inversion Hnd as [| ? ? Hx Hnd']; subst.
  cbn [find]. destruct Hin as [-> | Hin].
  - now rewrite Hk, Z.eqb_refl.
  - destruct (Category.id x) as [i |] eqn:Hi; [| now apply IH].
    destruct (Z.eqb_spec i k) as [-> | _]; [| now apply IH].
    exfalso. apply Hx. rewrite <- Hk. now apply in_map.
Qed.

(** X18. A book added under a category name reads that name back: when the
    categories have distinct numeric keys and [add_book] returns, the row it
    appended has the given ISBN and its [category] is the name passed to
    [add_book]. *)
Theorem add_book_category_round_trip
    (ISBN category : string) (cost : float) (cur : Z) (s s1 : db) :
  NoDup (map Category.id (categories s)) ->
  (forall c, In c (categories s) -> Category.id c <> None) ->
  add_book ISBN category cost cur s = (Ok tt, s1) ->
  exists b, books s1 = books s ++ [b]
            /\ Books.ISBN b = ISBN
            /\ Books_category s1 b = Ok category.
Proof.
  intros Hnd Hnum H1.
  destruct (find (fun c => String.eqb (Category.name c) category)
              (categories s)) as [c |] eqn:Hf.
  2:{ rewrite (add_book_not_found _ _ _ _ _ Hf) in H1. discriminate. }
  destruct (existsb (fun b => String.eqb (Books.ISBN b) ISBN) (books s))
    eqn:Hd.
  { rewrite (add_book_duplicate _ _ _ _ _ _ Hf Hd) in H1. discriminate. }
  rewrite (add_book_inserted _ _ _ _ _ _ Hf Hd) in H1.
  injection H1 as <-. eexists. split; [reflexivity |].
  split; [reflexivity |].
  apply find_some in Hf as [Hin E]. apply String.eqb_eq in E.
  unfold Books_category, category_desc. cbn [Books.category_id categories].
  destruct (Category.id c) as [k |] eqn:Hk; [| now destruct (Hnum c Hin)].
  rewrite (find_category_by_id _ c k Hnd Hin Hk). now rewrite E.
Qed.

Lemma add_book_category_round_trip_witness :
  let s := mkDb [] [Category.mk (Some 1) "horrors"; Category.mk (Some 2) "comix"]
             [sample_book 1] in
  exists b,
    books (snd (add_book "01-0101-0119" "comix" 500%float 1 s))
    = books s ++ [b]
    /\ Books.ISBN b = "01-0101-0119"
    /\ Books_category (snd (add_book "01-0101-0119" "comix" 500%float 1 s)) b
       = Ok "comix".
Proof.
  intros s.
  apply (add_book_category_round_trip "01-0101-0119" "comix" 500%float 1 s).
  - cbn. repeat constructor; cbn; intuition discriminate.
  - intros c [<- | [<- | []]]; discriminate.
  - reflexivity.
Defined.

(** X19. [category] answers with a name only when a stored category has the
    book's [category_id] as its key, and then with the name of such a
    category; it raises the attribute error exactly when the book has no
    [category_id] or no stored category has that key. *)
Theorem Books_category_resolves (s : db) (b : Books.t) :
  (forall n, Books_category s b = Ok n ->
             exists c k, In c (categories s) /\ Category.id c = Some k
                         /\ Books.category_id b = Some k
                         /\ Category.name c = n)
  /\ (Books_category s b = Raise AttributeError <->
      forall c k, In c (categories s) -> Books.category_id b = Some k ->
                  Category.id c <> Some k).
Proof.
  unfold Books_category, category_desc.
  destruct (Books.category_id b) as [k |]; [| split].
  - destruct (find _ (categories s)) as [c |] eqn:Hf.
    + apply find_some in Hf as [Hin E].
      destruct (Category.id c) as [i |] eqn:Hi; [| discriminate].
      apply Z.eqb_eq in E. subst i. split.
      * intros n [= <-]. now exists c, k.
      * split; [discriminate |]. intros H. now destruct (H c k Hin eq_refl).
    + split; [discriminate |]. split; [| reflexivity].
      intros _ c k' Hin [= <-] Hc. apply (find_none _ _ Hf) in Hin.
      rewrite Hc, Z.eqb_refl in Hin. discriminate.
  - discriminate.
  - split; [discriminate | reflexivity].
Qed.

(** ** [__repr__] *)

Lemma startswith_underscore_private (k : string) :
  Py.startswith "_" k = true -> public k = false.
Proof. unfold public. now intros ->. Qed.

(** X20. [__repr__] never shows a private attribute: an entry of [__dict__]
    whose name starts with an underscore can be dropped, wherever it stands,
    without changing the text. *)
Theorem Meta_repr_hides_private
    {V : Type} (str : V -> string) (tablename : string)
    (d1 d2 : list (string * V)) (k : string) (v : V) :
  Py.startswith "_" k = true ->
  Meta_repr str tablename (d1 ++ (k, v) :: d2)
  = Meta_repr str tablename (d1 ++ d2).
Proof.
  intros Hk. unfold Meta_repr. rewrite !filter_app. cbn [filter fst].
  now rewrite (startswith_underscore_private k Hk).
Qed.

Lemma Meta_repr_hides_private_witness :
  Meta_repr Py.str_opt "category"
    ([("_sa_instance_state", None); ("id", Some 1)] ++ ("_x", Some 3) :: [("n", None)])
  = "<category(id: 1, n: None)>".
Proof.
  rewrite (Meta_repr_hides_private Py.str_opt "category"
             [("_sa_instance_state", None); ("id", Some 1)] [("n", None)]
             "_x" (Some 3) eq_refl).
  reflexivity.
Defined.

(** ** [total_cost] *)




Set Warnings "-inexact-float".



(** The running total of the documented case, and [round] on ties and near
    zero: the exact value of the double decides, not its decimal spelling. *)
Example float_sum_documented_case :
  float_sum [19.99; 5.005; 0.005]%float = 24.999999999999996%float.
Proof. vm_compute. reflexivity. Qed.

Example float_round2_examples :
  float_round2 0.125%float = 0.12%float
  /\ float_round2 0.375%float = 0.38%float
  /\ float_round2 2.675%float = 2.67%float
  /\ float_round2 1.005%float = 1%float
  /\ float_round2 (-0.001)%float = neg_zero
  /\ float_round2 123456789012.345%float = 123456789012.35%float
  /\ float_round2 infinity = infinity.
Proof. vm_compute. repeat split. Qed.
